(** * The [Ses] Pulumi component of [src/index.ts]

    The component's constructor declares, in one pass, an IAM user with a
    sending policy and an access key, an SES domain identity, its MAIL FROM
    configuration and DKIM set-up, and seven Route 53 records.  The
    constructor is embedded as a program in a state-and-error monad whose
    state is the list of resources declared so far.

    Pulumi [Input<T>] and [Output<T>] values are represented by the value
    they resolve to. *)

From Stdlib Require Import String Ascii List Arith Lia Bool DecimalString.
From ExtLib Require Import Structures.Monad Structures.MonadState.
From ExtLib Require Import Data.Monads.StateMonad Data.Monads.EitherMonad.
Import ListNotations.
Import MonadNotation.
Local Open Scope monad_scope.
Local Open Scope string_scope.

#[local] Existing Instance Monad_stateT.
#[local] Set Warnings "-register-all".

(* ===================================================================== *)
(** * JavaScript built-ins used by the constructor                        *)
(* ===================================================================== *)

Module JS.

(** [Array.prototype.join] on an array of strings. *)
Fixpoint join (sep : string) (l : list string) : string :=
  match l with
  | [] => ""
  | [x] => x
  | x :: rest => x ++ sep ++ join sep rest
  end.

(** A template-literal hole [${v}] where [v] is a string or [undefined]
    ([None]): [undefined] is spelled out. *)
Definition hole (v : option string) : string :=
  match v with
  | Some s => s
  | None => "undefined"
  end.

(** A template-literal hole [${n}] for a non-negative integer. *)
Definition hole_number (n : nat) : string :=
  NilEmpty.string_of_uint (Nat.to_uint n).

(** Indexing [a[i]]: out of range gives [undefined]. *)
Definition index {A} (a : list A) (i : nat) : option A := nth_error a i.

(** ** [JSON.stringify(value, null, gap)] on strings, arrays and objects *)

Inductive json : Type :=
| JString (s : string)
| JArray (items : list json)
| JObject (members : list (string * json)).

Definition hex_digit (n : nat) : ascii :=
  nth n (list_ascii_of_string "0123456789abcdef") "0"%char.

Definition dquote : string := String (ascii_of_nat 34) "".
Definition newline : string := String (ascii_of_nat 10) "".

(** One character of [QuoteJSONString]. *)
Definition quote_char (c : ascii) : string :=
  let n := nat_of_ascii c in
  if (n =? 34)%nat then "\" ++ dquote
  else if (n =? 92)%nat then "\\"
  else if (n =? 8)%nat then "\b"
  else if (n =? 9)%nat then "\t"
  else if (n =? 10)%nat then "\n"
  else if (n =? 12)%nat then "\f"
  else if (n =? 13)%nat then "\r"
  else if (n <? 32)%nat then
    "\u00" ++ String (hex_digit (n / 16)) (String (hex_digit (n mod 16)) "")
  else String c "".

Fixpoint quote_body (s : string) : string :=
  match s with
  | EmptyString => ""
  | String c rest => quote_char c ++ quote_body rest
  end.

Definition QuoteJSONString (s : string) : string :=
  dquote ++ quote_body s ++ dquote.

(** [wrap opening closing gap stepback indent parts] lays out the already
    serialised elements of an array or the members of an object. *)
Definition wrap (opening closing gap stepback indent : string)
           (parts : list string) : string :=
  match parts with
  | [] => opening ++ closing
  | _ =>
      if (gap =? "")%string
      then opening ++ join "," parts ++ closing
      else opening ++ newline ++ indent
           ++ join ("," ++ newline ++ indent) parts
           ++ newline ++ stepback ++ closing
  end.

Fixpoint serialize (gap indent : string) (v : json) : string :=
  match v with
  | JString s => QuoteJSONString s
  | JArray items =>
      wrap "[" "]" gap indent (indent ++ gap)
           (map (serialize gap (indent ++ gap)) items)
  | JObject members =>
      wrap "{" "}" gap indent (indent ++ gap)
           (map (fun m : string * json =>
                   QuoteJSONString (fst m)
                   ++ (if (gap =? "")%string then ":" else ": ")
                   ++ serialize gap (indent ++ gap) (snd m))
                members)
  end.

Definition JSON_stringify (v : json) (gap : string) : string :=
  serialize gap "" v.

(** Property access [o[k]] on a parsed document. *)
Fixpoint member (k : string) (members : list (string * json)) : option json :=
  match members with
  | [] => None
  | (k', v) :: rest => if (k' =? k)%string then Some v else member k rest
  end.

Definition get (k : string) (v : json) : option json :=
  match v with
  | JObject members => member k members
  | _ => None
  end.

Definition at_index (i : nat) (v : json) : option json :=
  match v with
  | JArray items => nth_error items i
  | _ => None
  end.

End JS.

(* ===================================================================== *)
(** * The slice of the Pulumi AWS SDK the component uses                  *)
(* ===================================================================== *)

(** [aws.Tags]: an object used as a string-to-string map; the order of the
    literal is kept. *)
Definition Tags := list (string * string).

(** Argument bags, one module per [...Args] interface so that the fields
    keep the names of the object literals in the source. *)
Module UserArgs.
Record t := { name : string; path : string; tags : Tags }.
End UserArgs.

Module UserPolicyArgs.
Record t := { user : string; policy : string }.
End UserPolicyArgs.

Module AccessKeyArgs.
Record t := { user : string }.
End AccessKeyArgs.

Module DomainIdentityArgs.
Record t := { domain : string }.
End DomainIdentityArgs.

Module MailFromArgs.
Record t := { domain : string; mailFromDomain : string }.
End MailFromArgs.

Module DomainDkimArgs.
Record t := { domain : string }.
End DomainDkimArgs.

Module RecordArgs.
Record t := {
  zoneId : string;
  name : string;
  ttl : nat;
  type : string;
  records : list string
}.
End RecordArgs.

(** What the engine has been asked to create: the resource type is the
    constructor, the first argument the logical (URN) name. *)
Inductive Declaration : Type :=
| ComponentResource (type name : string)
| iam_User (name : string) (args : UserArgs.t)
| iam_UserPolicy (name : string) (args : UserPolicyArgs.t)
| iam_AccessKey (name : string) (args : AccessKeyArgs.t)
| ses_DomainIdentity (name : string) (args : DomainIdentityArgs.t)
| ses_MailFrom (name : string) (args : MailFromArgs.t)
| ses_DomainDkim (name : string) (args : DomainDkimArgs.t)
| route53_Record (name : string) (args : RecordArgs.t).

(** Values that only the cloud provider can issue, fixed for one
    deployment.  [dkimTokens] is whatever array the provider returns; its
    length is not assumed. *)
Module Provider.
Record t := {
  verificationToken : string;
  dkimTokens : list string;
  accessKeyId : string;
  sesSmtpPasswordV4 : string
}.
End Provider.

(** The ambient engine: the selected stack and the provider behind it. *)
Record Engine := {
  currentStack : string;
  provider : Provider.t
}.

(** Resource objects: the output properties the constructor reads.  The
    classes belong to the SDK, not to the repository, so what their outputs
    resolve to is taken from the data model of the specification; see the
    [new_...] operations below. *)
Module User.
Record t := { name : string }.
End User.

Module AccessKey.
Record t := { id : string; sesSmtpPasswordV4 : string }.
End AccessKey.

Module DomainIdentity.
Record t := { domain : string; verificationToken : string }.
End DomainIdentity.

Module MailFrom.
Record t := { mailFromDomain : string }.
End MailFrom.

Module DomainDkim.
Record t := { dkimTokens : list string }.
End DomainDkim.

Module Route53Record.
Record t := { urn : string; args : RecordArgs.t }.
End Route53Record.

(** Programs that declare resources: the state is the list of declarations
    in program order, the error is a thrown exception's message. *)
Definition Program : Type -> Type := stateT (list Declaration) (sum string).

Definition declare (d : Declaration) : Program unit :=
  l <- get ;; put (l ++ [d])%list.

Definition run {A} (p : Program A) : string + (A * list Declaration) :=
  runStateT p [].

Module pulumi.

Definition getStack (e : Engine) : string := currentStack e.

(** [super(type, name, {}, opts)] of a [ComponentResource]. *)
Definition super (type name : string) : Program unit :=
  declare (ComponentResource type name).

(** [this.registerOutputs({})] closes the component; it declares nothing. *)
Definition registerOutputs (outputs : list (string * string)) : Program unit :=
  ret tt.

End pulumi.

Module aws.

(** Modelled from the spec: the SDK class [aws.iam.User] is not in the
    repository; its [name] output is the stable reference to the principal
    and resolves to the [name] argument. *)
Definition new_User (name : string) (args : UserArgs.t) : Program User.t :=
  declare (iam_User name args) ;;
  ret {| User.name := UserArgs.name args |}.

Definition new_UserPolicy (name : string) (args : UserPolicyArgs.t)
  : Program unit :=
  declare (iam_UserPolicy name args).

(** The access key's identifier and derived SMTP secret are issued by the
    provider. *)
Definition new_AccessKey (e : Engine) (name : string) (args : AccessKeyArgs.t)
  : Program AccessKey.t :=
  declare (iam_AccessKey name args) ;;
  ret {| AccessKey.id := Provider.accessKeyId (provider e);
         AccessKey.sesSmtpPasswordV4 :=
           Provider.sesSmtpPasswordV4 (provider e) |}.

(** Modelled from the spec: the SDK class [aws.ses.DomainIdentity] is not
    in the repository; its outputs are the verification token, issued by
    the provider, and the "domain name echo", the [domain] argument. *)
Definition new_DomainIdentity (e : Engine) (name : string)
           (args : DomainIdentityArgs.t) : Program DomainIdentity.t :=
  declare (ses_DomainIdentity name args) ;;
  ret {| DomainIdentity.domain := DomainIdentityArgs.domain args;
         DomainIdentity.verificationToken :=
           Provider.verificationToken (provider e) |}.

(** Modelled from the spec: the SDK class [aws.ses.MailFrom] is not in
    the repository; its [mailFromDomain] output is the "resolved
    return-path domain name", the [mailFromDomain] argument. *)
Definition new_MailFrom (name : string) (args : MailFromArgs.t)
  : Program MailFrom.t :=
  declare (ses_MailFrom name args) ;;
  ret {| MailFrom.mailFromDomain := MailFromArgs.mailFromDomain args |}.

(** The signing tokens are issued by the provider. *)
Definition new_DomainDkim (e : Engine) (name : string)
           (args : DomainDkimArgs.t) : Program DomainDkim.t :=
  declare (ses_DomainDkim name args) ;;
  ret {| DomainDkim.dkimTokens := Provider.dkimTokens (provider e) |}.

Definition new_Record (name : string) (args : RecordArgs.t)
  : Program Route53Record.t :=
  declare (route53_Record name args) ;;
  ret {| Route53Record.urn := name; Route53Record.args := args |}.

End aws.

(** [for (let i = start; i < start + steps; i++) { acc.push(body(i)) }]. *)
Fixpoint for_push {A} (start steps : nat) (body : nat -> Program A)
  : Program (list A) :=
  match steps with
  | 0 => ret []
  | S k =>
      x <- body start ;;
      xs <- for_push (S start) k body ;;
      ret (x :: xs)
  end.

(* ===================================================================== *)
(** * The component                                                       *)
(* ===================================================================== *)

Record SesArgs := {
  description : string;
  baseTags : Tags;
  region : string;
  baseDomain : string;
  dnsZoneId : string;
  adminEmailAddress : string
}.

Module Ses.

(** The private fields of the class. *)
Record t := {
  name : string;
  description_ : string;
  baseTags_ : Tags;
  emailUserSmtpPassword : string;
  emailUserId : string
}.

Definition resourcePrefix (args : SesArgs) (stack : string) : string :=
  JS.join "-" [baseDomain args; stack].

Definition allowedFromAddress (args : SesArgs) (stack : string) : string :=
  if (stack =? "production")%string
  then "*@" ++ baseDomain args
  else "*@" ++ stack ++ "." ++ baseDomain args.

(** The object literal handed to [JSON.stringify] for the user policy. *)
Definition policyDocument (allowedFromAddress : string) : JS.json :=
  JS.JObject
    [ ("Version", JS.JString "2012-10-17");
      ("Statement",
        JS.JArray
          [ JS.JObject
              [ ("Action",
                  JS.JArray
                    [ JS.JString "ses:SendEmail";
                      JS.JString "ses:SendTemplatedEmail";
                      JS.JString "ses:SendRawEmail";
                      JS.JString "ses:SendBulkTemplatedEmail" ]);
                ("Effect", JS.JString "Allow");
                ("Resource", JS.JString "*");
                ("Condition",
                  JS.JObject
                    [ ("StringLike",
                        JS.JObject
                          [ ("ses:FromAddress",
                              JS.JString allowedFromAddress) ]) ]) ] ]) ].

Definition domain (args : SesArgs) (stack : string) : string :=
  if (stack =? "production")%string
  then baseDomain args
  else stack ++ "." ++ baseDomain args.

Definition dkimRecordCount : nat := 3.

(** The body of the DKIM loop for index [i]. *)
Definition dkimRecord (args : SesArgs) (stack : string)
           (stackDomainDKIM : DomainDkim.t) (i : nat)
  : Program Route53Record.t :=
  let token :=
    JS.hole (JS.index (DomainDkim.dkimTokens stackDomainDKIM) i)
    ++ ".dkim.amazonses.com" in
  let name :=
    JS.hole (JS.index (DomainDkim.dkimTokens stackDomainDKIM) i)
    ++ "._domainkey." ++ stack ++ "." ++ baseDomain args in
  aws.new_Record
    (resourcePrefix args stack ++ "-dkim-record-" ++ JS.hole_number (i + 1)
     ++ "-of-" ++ JS.hole_number dkimRecordCount)
    {| RecordArgs.zoneId := dnsZoneId args;
       RecordArgs.name := name;
       RecordArgs.type := "CNAME";
       RecordArgs.ttl := 3600;
       RecordArgs.records := [token] |}.

Definition constructor (e : Engine) (name : string) (args : SesArgs)
  : Program t :=
  pulumi.super "codicy:aws-ses" name ;;
  let stack := pulumi.getStack e in
  let resourcePrefix := resourcePrefix args stack in
  (* IAM email identity *)
  let emailUsername := resourcePrefix ++ "-email" in
  emailUser <-
    aws.new_User (resourcePrefix ++ "-ses")
      {| UserArgs.name := emailUsername;
         UserArgs.path := "/system/";
         UserArgs.tags := [("Environment", stack)] |} ;;
  let allowedFromAddress := allowedFromAddress args stack in
  (* Policy *)
  aws.new_UserPolicy (resourcePrefix ++ "-ses-policy")
    {| UserPolicyArgs.user := User.name emailUser;
       UserPolicyArgs.policy :=
         JS.JSON_stringify (policyDocument allowedFromAddress) "  " |} ;;
  (* Email access key *)
  emailAccessKey <-
    aws.new_AccessKey e (resourcePrefix ++ "-ses-access-key")
      {| AccessKeyArgs.user := User.name emailUser |} ;;
  (* Domain identity *)
  let domain := domain args stack in
  stackDomainIdentity <-
    aws.new_DomainIdentity e resourcePrefix
      {| DomainIdentityArgs.domain := domain |} ;;
  (* Verification record *)
  aws.new_Record (resourcePrefix ++ "-ses-verification")
    {| RecordArgs.zoneId := dnsZoneId args;
       RecordArgs.name := "_amazonses." ++ stack;
       RecordArgs.ttl := 3600;
       RecordArgs.type := "TXT";
       RecordArgs.records :=
         [DomainIdentity.verificationToken stackDomainIdentity] |} ;;
  (* MAIL FROM domain *)
  stackMailFrom <-
    aws.new_MailFrom (resourcePrefix ++ "-ses-mail-from")
      {| MailFromArgs.domain := DomainIdentity.domain stackDomainIdentity;
         MailFromArgs.mailFromDomain :=
           "bounce." ++ DomainIdentity.domain stackDomainIdentity |} ;;
  (* MAIL FROM MX record *)
  aws.new_Record (resourcePrefix ++ "-ses-mail-from-mx-record")
    {| RecordArgs.zoneId := dnsZoneId args;
       RecordArgs.name := MailFrom.mailFromDomain stackMailFrom;
       RecordArgs.type := "MX";
       RecordArgs.ttl := 3600;
       RecordArgs.records :=
         ["10 feedback-smtp." ++ region args ++ ".amazonses.com"] |} ;;
  (* SPF record *)
  aws.new_Record (resourcePrefix ++ "-ses-spf-mx-record")
    {| RecordArgs.name := MailFrom.mailFromDomain stackMailFrom;
       RecordArgs.type := "TXT";
       RecordArgs.ttl := 3600;
       RecordArgs.zoneId := dnsZoneId args;
       RecordArgs.records := ["v=spf1 include:amazonses.com mail -all"] |} ;;
  (* DKIM *)
  stackDomainDKIM <-
    aws.new_DomainDkim e (resourcePrefix ++ "-ses-domain-dkim")
      {| DomainDkimArgs.domain := DomainIdentity.domain stackDomainIdentity |} ;;
  stackDKIMRecords <-
    for_push 0 dkimRecordCount (dkimRecord args stack stackDomainDKIM) ;;
  (* DMARC record *)
  aws.new_Record (resourcePrefix ++ "-external-dmarc")
    {| RecordArgs.name := "_dmarc." ++ domain;
       RecordArgs.zoneId := dnsZoneId args;
       RecordArgs.ttl := 3600;
       RecordArgs.type := "TXT";
       RecordArgs.records :=
         ["v=DMARC1; p=none; rua=mailto:" ++ adminEmailAddress args
          ++ "; fo=1;"] |} ;;
  pulumi.registerOutputs [] ;;
  ret {| Ses.name := name;
         description_ := description args;
         baseTags_ := baseTags args;
         emailUserSmtpPassword := AccessKey.sesSmtpPasswordV4 emailAccessKey;
         emailUserId := AccessKey.id emailAccessKey |}.

Definition getEmailUserSmtpPassword (this : t) : string :=
  emailUserSmtpPassword this.

Definition getEmailUserId (this : t) : string := emailUserId this.

End Ses.

(* ===================================================================== *)
(** * Observing a construction                                            *)
(* ===================================================================== *)

(** The declarations a construction leaves behind; none if it throws. *)
Definition declared (e : Engine) (name : string) (args : SesArgs)
  : list Declaration :=
  match run (Ses.constructor e name args) with
  | inr (_, decls) => decls
  | inl _ => []
  end.

(** The child resources: everything but the component itself. *)
Definition is_child (d : Declaration) : bool :=
  match d with
  | ComponentResource _ _ => false
  | _ => true
  end.

Definition children (decls : list Declaration) : list Declaration :=
  filter is_child decls.

Fixpoint dns_records (decls : list Declaration) : list Route53Record.t :=
  match decls with
  | [] => []
  | route53_Record urn args :: rest =>
      {| Route53Record.urn := urn; Route53Record.args := args |}
      :: dns_records rest
  | _ :: rest => dns_records rest
  end.

Fixpoint domain_identities (decls : list Declaration)
  : list DomainIdentityArgs.t :=
  match decls with
  | [] => []
  | ses_DomainIdentity _ args :: rest => args :: domain_identities rest
  | _ :: rest => domain_identities rest
  end.

Fixpoint mail_froms (decls : list Declaration) : list MailFromArgs.t :=
  match decls with
  | [] => []
  | ses_MailFrom _ args :: rest => args :: mail_froms rest
  | _ :: rest => mail_froms rest
  end.

Fixpoint user_policies (decls : list Declaration) : list UserPolicyArgs.t :=
  match decls with
  | [] => []
  | iam_UserPolicy _ args :: rest => args :: user_policies rest
  | _ :: rest => user_policies rest
  end.

Definition rtype (r : Route53Record.t) : string :=
  RecordArgs.type (Route53Record.args r).
Definition rname (r : Route53Record.t) : string :=
  RecordArgs.name (Route53Record.args r).
Definition rvalues (r : Route53Record.t) : list string :=
  RecordArgs.records (Route53Record.args r).
Definition rzone (r : Route53Record.t) : string :=
  RecordArgs.zoneId (Route53Record.args r).

(** The DNS records of one record type, in declaration order. *)
Definition records_of_type (ty : string) (decls : list Declaration)
  : list Route53Record.t :=
  filter (fun r => (rtype r =? ty)%string) (dns_records decls).

(** The DNS record declared under a logical name. *)
Definition record_named (urn : string) (decls : list Declaration)
  : option Route53Record.t :=
  find (fun r => (Route53Record.urn r =? urn)%string) (dns_records decls).

(** The from-address condition of a policy document:
    [doc.Statement[0].Condition.StringLike["ses:FromAddress"]]. *)
Definition fromAddressCondition (doc : JS.json) : option JS.json :=
  match JS.get "Statement" doc with
  | Some stmts =>
      match JS.at_index 0 stmts with
      | Some stmt =>
          match JS.get "Condition" stmt with
          | Some cond =>
              match JS.get "StringLike" cond with
              | Some like => JS.get "ses:FromAddress" like
              | None => None
              end
          | None => None
          end
      | None => None
      end
  | None => None
  end.

(** Splitting a record value at spaces, as a mail receiver reads the terms
    of an SPF policy. *)
Fixpoint words_from (cur : string) (s : string) : list string :=
  match s with
  | EmptyString => [cur]
  | String c rest =>
      if Ascii.eqb c " "%char
      then cur :: words_from "" rest
      else words_from (cur ++ String c "") rest
  end.

Definition words (s : string) : list string := words_from "" s.

(** [s] occurs inside [t]. *)
Definition occurs_in (s t : string) : Prop :=
  exists before after, t = before ++ s ++ after.

(* ===================================================================== *)
(** * The records by role, and the properties under study              *)
(* ===================================================================== *)

(** The signing records are the CNAME records of the component. *)
Definition signing_records (e : Engine) (name : string) (a : SesArgs)
  : list Route53Record.t :=
  records_of_type "CNAME" (declared e name a).

(** Name and value of a record. *)
Definition name_and_values (r : Route53Record.t) : string * list string :=
  (rname r, rvalues r).

(** The logical name under which a resource is declared. *)
Definition logical_name (d : Declaration) : string :=
  match d with
  | ComponentResource _ n
  | iam_User n _
  | iam_UserPolicy n _
  | iam_AccessKey n _
  | ses_DomainIdentity n _
  | ses_MailFrom n _
  | ses_DomainDkim n _
  | route53_Record n _ => n
  end.

(** The logical names of the records that are looked up by name. *)
Definition verification_urn (a : SesArgs) (stack : string) : string :=
  Ses.resourcePrefix a stack ++ "-ses-verification".
Definition spf_urn (a : SesArgs) (stack : string) : string :=
  Ses.resourcePrefix a stack ++ "-ses-spf-mx-record".
Definition dmarc_urn (a : SesArgs) (stack : string) : string :=
  Ses.resourcePrefix a stack ++ "-external-dmarc".

Definition name_of (urn : string) (decls : list Declaration) : option string :=
  option_map rname (record_named urn decls).

(** The name a signing record would have if its domain part were the
    domain [D] of the identity. *)
Definition signing_name_under (D : string) (tokens : list string) (i : nat)
  : string :=
  JS.hole (JS.index tokens i) ++ "._domainkey." ++ D.

(** "Every domain-qualified record takes its domain part from the Domain
    Identity": with [D] the domain of a declared identity, the return-path
    and sender-policy records are named [bounce.D], the signing records
    [<token>._domainkey.D] and the reporting-policy record [_dmarc.D]. *)
Definition names_follow_identity (e : Engine) (name : string) (a : SesArgs)
  : Prop :=
  let decls := declared e name a in
  let stack := currentStack e in
  forall d, In d (domain_identities decls) ->
    let D := DomainIdentityArgs.domain d in
    map rname (records_of_type "MX" decls) = ["bounce." ++ D]
    /\ name_of (spf_urn a stack) decls = Some ("bounce." ++ D)
    /\ map rname (records_of_type "CNAME" decls)
       = map (signing_name_under D (Provider.dkimTokens (provider e)))
             [0; 1; 2]
    /\ name_of (dmarc_urn a stack) decls = Some ("_dmarc." ++ D).

(** A construction is rejected when the constructor throws. *)
Definition rejected (e : Engine) (name : string) (a : SesArgs) : Prop :=
  exists message : string, run (Ses.constructor e name a) = inl message.

(** Arguments with an empty base domain. *)
Definition no_domain_args : SesArgs :=
  {| description := "Transactional mail";
     baseTags := [];
     region := "us-east-1";
     baseDomain := "";
     dnsZoneId := "Z123";
     adminEmailAddress := "admin@example.com" |}.

(* ===================================================================== *)
(** * Fixtures: the deployments of the end-to-end scenarios               *)
(* ===================================================================== *)

Module Scenario.

Definition args : SesArgs :=
  {| description := "Transactional mail";
     baseTags := [("Project", "mail")];
     region := "us-east-1";
     baseDomain := "example.com";
     dnsZoneId := "Z123";
     adminEmailAddress := "admin@example.com" |}.

Definition issued : Provider.t :=
  {| Provider.verificationToken := "vtok";
     Provider.dkimTokens := ["tokA"; "tokB"; "tokC"];
     Provider.accessKeyId := "AKIAEXAMPLE";
     Provider.sesSmtpPasswordV4 := "smtp-secret" |}.

Definition engine (stack : string) : Engine :=
  {| currentStack := stack; provider := issued |}.

Definition production : Engine := engine "production".
Definition staging : Engine := engine "staging".

End Scenario.

(* ===================================================================== *)
(** * Further observations: the principal, the bindings, two components   *)
(* ===================================================================== *)

Fixpoint users (decls : list Declaration) : list UserArgs.t :=
  match decls with
  | [] => []
  | iam_User _ args :: rest => args :: users rest
  | _ :: rest => users rest
  end.

Fixpoint access_keys (decls : list Declaration) : list AccessKeyArgs.t :=
  match decls with
  | [] => []
  | iam_AccessKey _ args :: rest => args :: access_keys rest
  | _ :: rest => access_keys rest
  end.

Fixpoint domain_dkims (decls : list Declaration) : list DomainDkimArgs.t :=
  match decls with
  | [] => []
  | ses_DomainDkim _ args :: rest => args :: domain_dkims rest
  | _ :: rest => domain_dkims rest
  end.

Definition rttl (r : Route53Record.t) : nat :=
  RecordArgs.ttl (Route53Record.args r).

(** What the constructor adds to the resource prefix to name its thirteen
    children, in program order; the identity is named by the bare prefix. *)
Definition child_suffixes : list string :=
  [ "-ses"; "-ses-policy"; "-ses-access-key"; ""; "-ses-verification";
    "-ses-mail-from"; "-ses-mail-from-mx-record"; "-ses-spf-mx-record";
    "-ses-domain-dkim"; "-dkim-record-1-of-3"; "-dkim-record-2-of-3";
    "-dkim-record-3-of-3"; "-external-dmarc" ].

Definition mx_urn (a : SesArgs) (stack : string) : string :=
  Ses.resourcePrefix a stack ++ "-ses-mail-from-mx-record".

(** The declarations but for the DNS record of one logical name. *)
Definition is_record_named (urn : string) (d : Declaration) : bool :=
  match d with
  | route53_Record n _ => (n =? urn)%string
  | _ => false
  end.

Definition without_record (urn : string) (decls : list Declaration)
  : list Declaration :=
  flat_map (fun d => if is_record_named urn d then [] else [d]) decls.

(** The declarations but for the signing records. *)
Definition is_signing_record (d : Declaration) : bool :=
  match d with
  | route53_Record _ args => (RecordArgs.type args =? "CNAME")%string
  | _ => false
  end.

Definition without_signing_records (decls : list Declaration)
  : list Declaration :=
  filter (fun d => negb (is_signing_record d)) decls.

(** [s] ends with [suffix]. *)
Definition ends_with (suffix s : string) : Prop :=
  exists front, s = front ++ suffix.

(** A program that instantiates the component twice, as a caller may. *)
Definition two_components (e : Engine) (name1 : string) (args1 : SesArgs)
           (name2 : string) (args2 : SesArgs) : Program (Ses.t * Ses.t) :=
  first <- Ses.constructor e name1 args1 ;;
  second <- Ses.constructor e name2 args2 ;;
  ret (first, second).

(** Reading a JSON string literal back, from just after its opening quote:
    the characters up to the closing quote, escapes undone, and the text
    that follows the closing quote.  Only the escapes [QuoteJSONString]
    writes are read. *)
Definition hex_value (c : ascii) : option nat :=
  let n := nat_of_ascii c in
  if ((48 <=? n) && (n <=? 57))%nat then Some (n - 48)
  else if ((97 <=? n) && (n <=? 102))%nat then Some (n - 87)
  else None.

Definition escaped_char (e : ascii) : option ascii :=
  let n := nat_of_ascii e in
  if (n =? 34)%nat then Some (ascii_of_nat 34)
  else if (n =? 92)%nat then Some (ascii_of_nat 92)
  else if (n =? 98)%nat then Some (ascii_of_nat 8)
  else if (n =? 116)%nat then Some (ascii_of_nat 9)
  else if (n =? 110)%nat then Some (ascii_of_nat 10)
  else if (n =? 102)%nat then Some (ascii_of_nat 12)
  else if (n =? 114)%nat then Some (ascii_of_nat 13)
  else None.

Definition push_char (c : ascii) (r : option (string * string))
  : option (string * string) :=
  match r with
  | Some (body, rest) => Some (String c body, rest)
  | None => None
  end.

Fixpoint read_literal (s : string) : option (string * string) :=
  match s with
  | EmptyString => None
  | String c rest =>
      if (nat_of_ascii c =? 34)%nat then Some ("", rest)
      else if (nat_of_ascii c =? 92)%nat then
        match rest with
        | EmptyString => None
        | String e rest1 =>
            if (nat_of_ascii e =? 117)%nat then
              match rest1 with
              | String h1 (String h2 (String h3 (String h4 rest2))) =>
                  match hex_value h1, hex_value h2,
                        hex_value h3, hex_value h4 with
                  | Some 0, Some 0, Some hi, Some lo =>
                      push_char (ascii_of_nat (16 * hi + lo))
                                (read_literal rest2)
                  | _, _, _, _ => None
                  end
              | _ => None
              end
            else
              match escaped_char e with
              | Some d => push_char d (read_literal rest1)
              | None => None
              end
        end
      else push_char c (read_literal rest)
  end.

(* ===================================================================== *)
(** * Facts about string concatenation                                    *)
(* ===================================================================== *)

Section StringFacts.

Lemma append_assoc (a b c : string) : (a ++ b) ++ c = a ++ (b ++ c).
Proof.
  induction a as [|x a IH]; simpl; [reflexivity | now rewrite IH].
Qed.

Lemma length_append (a b : string) :
  String.length (a ++ b) = String.length a + String.length b.
Proof.
  induction a as [|x a IH]; simpl; [reflexivity | now rewrite IH].
Qed.

Lemma append_inv_head (p a b : string) : p ++ a = p ++ b -> a = b.
Proof.
  induction p as [|x p IH]; simpl; intros H; [exact H |].
  injection H as H. now apply IH.
Qed.

Lemma append_inv_tail (s a b : string) : a ++ s = b ++ s -> a = b.
Proof.
  revert b. induction a as [|x a IH]; intros [|y b] H; simpl in H.
  - reflexivity.
  - apply (f_equal String.length) in H. simpl in H.
    rewrite length_append in H. lia.
  - apply (f_equal String.length) in H. simpl in H.
    rewrite length_append in H. lia.
  - injection H as Hxy H. subst y. f_equal. now apply IH.
Qed.

Lemma append_eqb_head (p a b : string) :
  (p ++ a =? p ++ b)%string = (a =? b)%string.
Proof.
  induction p as [|x p IH]; simpl; [reflexivity |].
  now rewrite Ascii.eqb_refl.
Qed.

(** A string is never equal to itself with a non-empty prefix added. *)
Lemma append_grows (p s : string) : p <> "" -> p ++ s <> s.
Proof.
  intros Hp H. apply (f_equal String.length) in H.
  rewrite length_append in H. destruct p; [now apply Hp | simpl in H; lia].
Qed.

Lemma append_nil_r (s : string) : s ++ "" = s.
Proof.
  induction s as [|c s IH]; simpl; [reflexivity | now rewrite IH].
Qed.

(** Where a string sits inside a concatenation. *)
Lemma occurs_in_refl (s : string) : occurs_in s s.
Proof.
  exists "", "". simpl. now rewrite append_nil_r.
Qed.

Lemma occurs_in_app_l (s l r : string) : occurs_in s l -> occurs_in s (l ++ r).
Proof.
  intros (before & after & ->). exists before, (after ++ r).
  now rewrite !append_assoc.
Qed.

Lemma occurs_in_app_r (s l r : string) : occurs_in s r -> occurs_in s (l ++ r).
Proof.
  intros (before & after & ->). exists (l ++ before), after.
  now rewrite !append_assoc.
Qed.

End StringFacts.

Ltac find_occurrence :=
  lazymatch goal with
  | |- occurs_in ?s ?s => apply occurs_in_refl
  | |- occurs_in ?s (?l ++ ?r) =>
      first [ apply occurs_in_app_l; find_occurrence
            | apply occurs_in_app_r; find_occurrence ]
  end.


(* ===================================================================== *)
(** * Running the constructor symbolically                                *)
(* ===================================================================== *)

(** Concatenations and the derived names stay folded while the monadic
    program is evaluated, so that goals show the strings of the source. *)
#[local] Arguments String.append : simpl never.
#[local] Arguments Ses.resourcePrefix : simpl never.
#[local] Arguments Ses.domain : simpl never.
#[local] Arguments Ses.allowedFromAddress : simpl never.
#[local] Arguments Ses.policyDocument : simpl never.
#[local] Arguments JS.JSON_stringify : simpl never.
#[local] Arguments JS.hole : simpl never.
#[local] Arguments JS.index : simpl never.
#[local] Arguments pulumi.getStack : simpl never.

(** Looking a record up by logical name compares names that share the
    resource prefix. *)
Ltac by_logical_name :=
  unfold record_named; cbn; rewrite ?append_eqb_head; cbn.

(** The two branches of the [stack === "production"] test. *)
Lemma domain_production (a : SesArgs) :
  Ses.domain a "production" = baseDomain a.
Proof. reflexivity. Qed.

Lemma domain_other (a : SesArgs) (stack : string) :
  stack <> "production" -> Ses.domain a stack = stack ++ "." ++ baseDomain a.
Proof.
  intros H. unfold Ses.domain.
  destruct (String.eqb_spec stack "production"); [contradiction | reflexivity].
Qed.

Lemma allowedFromAddress_production (a : SesArgs) :
  Ses.allowedFromAddress a "production" = "*@" ++ baseDomain a.
Proof. reflexivity. Qed.

Lemma allowedFromAddress_other (a : SesArgs) (stack : string) :
  stack <> "production" ->
  Ses.allowedFromAddress a stack = "*@" ++ stack ++ "." ++ baseDomain a.
Proof.
  intros H. unfold Ses.allowedFromAddress.
  destruct (String.eqb_spec stack "production"); [contradiction | reflexivity].
Qed.

(** The send domain is never the base domain with nothing in front, unless
    the stack is the production one. *)
Lemma qualified_differs (stack base : string) : stack ++ "." ++ base <> base.
Proof.
  intros H. apply (f_equal String.length) in H.
  rewrite !length_append in H. simpl in H. lia.
Qed.

(** Different stacks resolve to different send domains. *)
Lemma domain_injective (a : SesArgs) (s1 s2 : string) :
  s1 <> s2 -> Ses.domain a s1 <> Ses.domain a s2.
Proof.
  intros Hne. unfold Ses.domain.
  destruct (String.eqb_spec s1 "production") as [E1|N1],
           (String.eqb_spec s2 "production") as [E2|N2]; intros H.
  - congruence.
  - symmetry in H. now apply qualified_differs in H.
  - now apply qualified_differs in H.
  - apply append_inv_tail in H. contradiction.
Qed.

(* ===================================================================== *)
(** * Naming and environment resolution                                   *)
(* ===================================================================== *)

(** C1. Every construction declares one Domain Identity, and the domain it
    is given is the base domain when the stack is "production" and
    [<stack>.<base domain>] for every other stack name. *)
Theorem send_domain_resolved (e : Engine) (name : string) (a : SesArgs) :
  (currentStack e = "production" ->
   domain_identities (declared e name a)
   = [{| DomainIdentityArgs.domain := baseDomain a |}])
  /\
  (currentStack e <> "production" ->
   domain_identities (declared e name a)
   = [{| DomainIdentityArgs.domain :=
           currentStack e ++ "." ++ baseDomain a |}]).
Proof.
  split; intros H; cbn; unfold pulumi.getStack.
  - rewrite H. reflexivity.
  - now rewrite domain_other.
Qed.

Lemma send_domain_resolved_scenarios :
  domain_identities (declared Scenario.production "mail" Scenario.args)
  = [{| DomainIdentityArgs.domain := "example.com" |}]
  /\
  domain_identities (declared Scenario.staging "mail" Scenario.args)
  = [{| DomainIdentityArgs.domain := "staging.example.com" |}].
Proof.
  split.
  - apply (proj1 (send_domain_resolved Scenario.production "mail"
                    Scenario.args)).
    reflexivity.
  - apply (proj2 (send_domain_resolved Scenario.staging "mail"
                    Scenario.args)).
    discriminate.
Defined.

(** The serialised policy spells the from-address condition as the member
    ["ses:FromAddress": "<pattern>"], the pattern quoted as JSON. *)
Lemma policy_text_has_condition (pattern : string) :
  occurs_in (JS.QuoteJSONString "ses:FromAddress" ++ ": "
             ++ JS.QuoteJSONString pattern)
            (JS.JSON_stringify (Ses.policyDocument pattern) "  ").
Proof.
  unfold JS.JSON_stringify, Ses.policyDocument.
  cbn -[JS.QuoteJSONString String.append].
  find_occurrence.
Qed.

(** C2. Every construction declares one user policy, whose text is the
    serialised policy document built on the allowed-sender pattern: the
    pattern is [*@<base domain>] when the stack is "production" and
    [*@<stack>.<base domain>] for every other stack name.  In that
    document the pattern is the value of the from-address condition, and
    the text spells it out as such. *)
Theorem allowed_sender_pattern (e : Engine) (name : string) (a : SesArgs) :
  (currentStack e = "production" ->
   map UserPolicyArgs.policy (user_policies (declared e name a))
   = [JS.JSON_stringify (Ses.policyDocument ("*@" ++ baseDomain a)) "  "])
  /\
  (currentStack e <> "production" ->
   map UserPolicyArgs.policy (user_policies (declared e name a))
   = [JS.JSON_stringify
        (Ses.policyDocument ("*@" ++ currentStack e ++ "." ++ baseDomain a))
        "  "])
  /\
  (forall pattern : string,
     fromAddressCondition (Ses.policyDocument pattern)
     = Some (JS.JString pattern)
     /\ occurs_in (JS.QuoteJSONString "ses:FromAddress" ++ ": "
                   ++ JS.QuoteJSONString pattern)
                  (JS.JSON_stringify (Ses.policyDocument pattern) "  ")).
Proof.
  split; [| split].
  - intros H. cbn. unfold pulumi.getStack. rewrite H. reflexivity.
  - intros H. cbn. unfold pulumi.getStack.
    now rewrite allowedFromAddress_other.
  - intros pattern. split; [reflexivity | apply policy_text_has_condition].
Qed.

Lemma allowed_sender_pattern_scenarios :
  map UserPolicyArgs.policy
      (user_policies (declared Scenario.production "mail" Scenario.args))
  = [JS.JSON_stringify (Ses.policyDocument "*@example.com") "  "]
  /\
  map UserPolicyArgs.policy
      (user_policies (declared Scenario.staging "mail" Scenario.args))
  = [JS.JSON_stringify (Ses.policyDocument "*@staging.example.com") "  "].
Proof.
  split.
  - apply (proj1 (allowed_sender_pattern Scenario.production "mail"
                    Scenario.args)).
    reflexivity.
  - apply (proj1 (proj2 (allowed_sender_pattern Scenario.staging "mail"
                           Scenario.args))).
    discriminate.
Defined.

(* ===================================================================== *)
(** * Record names and the Domain Identity                                *)
(* ===================================================================== *)

(** Outside production the names do follow the identity: the signing
    names, built from the stack name and the base domain, and the
    reporting-policy name, built from the resolved send domain, come to
    the same strings as if they were read from the identity. *)
Lemma names_follow_identity_off_production
      (e : Engine) (name : string) (a : SesArgs) :
  currentStack e <> "production" -> names_follow_identity e name a.
Proof.
  intros Hstack d Hin. cbn in Hin. destruct Hin as [<- | []].
  cbn [DomainIdentityArgs.domain].
  split; [reflexivity |].
  split; [unfold name_of, spf_urn; by_logical_name; reflexivity |].
  split; [| unfold name_of, dmarc_urn; by_logical_name; reflexivity].
  cbn. unfold signing_name_under, pulumi.getStack.
  now rewrite (domain_other a _ Hstack).
Qed.

(** Under the production stack they never do, whatever the base domain
    and the tokens: the identity is declared for the base domain, while
    the signing names keep [production.] in front of it. *)
Lemma names_leave_identity_in_production
      (e : Engine) (name : string) (a : SesArgs) :
  currentStack e = "production" -> ~ names_follow_identity e name a.
Proof.
  intros Hprod H.
  specialize (H {| DomainIdentityArgs.domain :=
                     Ses.domain a (currentStack e) |}
                (or_introl eq_refl)).
  destruct H as (_ & _ & H & _).
  cbn in H. unfold signing_name_under, pulumi.getStack in H.
  rewrite Hprod, domain_production in H.
  injection H as H _ _.
  do 2 apply append_inv_head in H.
  now apply qualified_differs in H.
Qed.

(** C3. Every domain-qualified record should take its domain part from
    the one Domain Identity.  Evaluated on the production deployment of
    the scenario, the constructor declares the identity for
    [example.com], for which the signing records would be named
    [tokA._domainkey.example.com] and so on; it names them
    [tokA._domainkey.production.example.com] and so on, and the
    verification record [_amazonses.production]: the names do not follow
    the identity there. *)
Lemma production_signing_names_leave_identity :
  domain_identities (declared Scenario.production "mail" Scenario.args)
  = [{| DomainIdentityArgs.domain := "example.com" |}]
  /\ map rname
         (records_of_type "CNAME"
            (declared Scenario.production "mail" Scenario.args))
     = ["tokA._domainkey.production.example.com";
        "tokB._domainkey.production.example.com";
        "tokC._domainkey.production.example.com"]
  /\ map (signing_name_under "example.com"
            (Provider.dkimTokens (provider Scenario.production)))
         [0; 1; 2]
     = ["tokA._domainkey.example.com";
        "tokB._domainkey.example.com";
        "tokC._domainkey.example.com"]
  /\ name_of (verification_urn Scenario.args "production")
             (declared Scenario.production "mail" Scenario.args)
     = Some "_amazonses.production"
  /\ ~ names_follow_identity Scenario.production "mail" Scenario.args.
Proof.
  split; [reflexivity |]. split; [reflexivity |].
  split; [reflexivity |]. split; [reflexivity |].
  intros H.
  specialize (H {| DomainIdentityArgs.domain := "example.com" |}
                (or_introl eq_refl)).
  destruct H as (_ & _ & H & _).
  vm_compute in H. discriminate H.
Qed.

(* ===================================================================== *)
(** * Input validation                                                    *)
(* ===================================================================== *)

(** With an empty base domain and an empty stack name the constructor
    still returns, having declared the component and its thirteen children;
    the identity is declared for the domain ["."]. *)
Lemma empty_inputs_are_accepted :
  ~ rejected (Scenario.engine "") "mail" no_domain_args
  /\ length (children (declared (Scenario.engine "") "mail" no_domain_args))
     = 13
  /\ domain_identities (declared (Scenario.engine "") "mail" no_domain_args)
     = [{| DomainIdentityArgs.domain := "." |}].
Proof.
  split; [| split; reflexivity].
  intros (message & H). vm_compute in H. discriminate H.
Qed.

(** C4 (as amended). The constructor validates nothing: whatever the base
    domain and the stack name, empty ones included, it returns the
    component and has declared the same thirteen child resources. *)
Theorem construction_never_rejects (e : Engine) (name : string) (a : SesArgs) :
  (exists this : Ses.t,
     run (Ses.constructor e name a) = inr (this, declared e name a))
  /\ length (children (declared e name a)) = 13.
Proof.
  split; [eexists; reflexivity | reflexivity].
Qed.

(* ===================================================================== *)
(** * The signing records                                                 *)
(* ===================================================================== *)

(** The loop runs [dkimRecordCount] times whatever the provider returned:
    a position with no token is read as [undefined]. *)
Lemma signing_records_unfold (e : Engine) (name : string) (a : SesArgs) :
  map name_and_values (signing_records e name a)
  = map (fun i =>
           (JS.hole (JS.index (Provider.dkimTokens (provider e)) i)
            ++ "._domainkey." ++ currentStack e ++ "." ++ baseDomain a,
            [JS.hole (JS.index (Provider.dkimTokens (provider e)) i)
             ++ ".dkim.amazonses.com"]))
        [0; 1; 2].
Proof. reflexivity. Qed.

Example signing_records_without_tokens :
  map name_and_values
      (signing_records
         {| currentStack := "staging";
            provider :=
              {| Provider.verificationToken := "vtok";
                 Provider.dkimTokens := [];
                 Provider.accessKeyId := "AKIAEXAMPLE";
                 Provider.sesSmtpPasswordV4 := "smtp-secret" |} |}
         "mail" Scenario.args)
  = [("undefined._domainkey.staging.example.com",
      ["undefined.dkim.amazonses.com"]);
     ("undefined._domainkey.staging.example.com",
      ["undefined.dkim.amazonses.com"]);
     ("undefined._domainkey.staging.example.com",
      ["undefined.dkim.amazonses.com"])].
Proof. reflexivity. Qed.

(** A token that the provider returns twice names two records alike: the
    names are as distinct as the tokens are. *)
Example signing_records_with_a_repeated_token :
  map rname
      (signing_records
         {| currentStack := "staging";
            provider :=
              {| Provider.verificationToken := "vtok";
                 Provider.dkimTokens := ["tokA"; "tokA"; "tokB"];
                 Provider.accessKeyId := "AKIAEXAMPLE";
                 Provider.sesSmtpPasswordV4 := "smtp-secret" |} |}
         "mail" Scenario.args)
  = ["tokA._domainkey.staging.example.com";
     "tokA._domainkey.staging.example.com";
     "tokB._domainkey.staging.example.com"].
Proof. reflexivity. Qed.

(** Names and values are injective in the token. *)
Lemma signing_name_injective (t t' suffix : string) :
  t ++ suffix = t' ++ suffix -> t = t'.
Proof. apply append_inv_tail. Qed.

Lemma signing_value_injective (t t' suffix : string) :
  [t ++ suffix] = [t' ++ suffix] -> t = t'.
Proof.
  intros H. injection H as H. now apply append_inv_tail in H.
Qed.

(** C5. Every construction declares exactly three signing records,
    whatever the length of the token list.  For a token set of length 3
    (three pairwise distinct tokens), the record at position [i] is named
    [<token_i>._domainkey.<stack>.<base domain>] and has the single value
    [<token_i>.dkim.amazonses.com], and the three records have pairwise
    distinct names and pairwise distinct values. *)
Theorem signing_fan_out (e : Engine) (name : string) (a : SesArgs) :
  let tokens := Provider.dkimTokens (provider e) in
  let signing := signing_records e name a in
  length signing = 3
  /\ (length tokens = 3 ->
      (forall i t,
         nth_error tokens i = Some t ->
         option_map name_and_values (nth_error signing i)
         = Some (t ++ "._domainkey." ++ currentStack e ++ "."
                   ++ baseDomain a,
                 [t ++ ".dkim.amazonses.com"]))
      /\ (NoDup tokens ->
          NoDup (map rname signing) /\ NoDup (map rvalues signing))).
Proof.
  intros tokens signing. subst tokens signing.
  split; [reflexivity |].
  intros Hlen.
  unfold signing_records. cbn.
  destruct (Provider.dkimTokens (provider e))
    as [|t0 [|t1 [|t2 [|t3 rest]]]]; try discriminate Hlen.
  unfold JS.hole, JS.index, pulumi.getStack. cbn.
  split.
  - intros [|[|[|i]]] t Hi; cbn in Hi.
    + injection Hi as <-. reflexivity.
    + injection Hi as <-. reflexivity.
    + injection Hi as <-. reflexivity.
    + destruct i; discriminate Hi.
  - intros Hnodup.
    inversion Hnodup as [|? ? H0 Hrest]; subst.
    inversion Hrest as [|? ? H1 Hrest']; subst.
    inversion Hrest' as [|? ? H2 _]; subst.
    cbn in H0, H1, H2.
    split.
    + repeat constructor; cbn; intros H;
        repeat (destruct H as [H|H]; [apply signing_name_injective in H |]);
        try (subst; tauto); try assumption.
    + repeat constructor; cbn; intros H;
        repeat (destruct H as [H|H]; [apply signing_value_injective in H |]);
        try (subst; tauto); try assumption.
Qed.

Lemma signing_fan_out_staging :
  length (signing_records Scenario.staging "mail" Scenario.args) = 3
  /\ option_map name_and_values
       (nth_error (signing_records Scenario.staging "mail" Scenario.args) 1)
     = Some ("tokB._domainkey.staging.example.com",
             ["tokB.dkim.amazonses.com"])
  /\ NoDup (map rname (signing_records Scenario.staging "mail" Scenario.args))
  /\ NoDup
       (map rvalues (signing_records Scenario.staging "mail" Scenario.args)).
Proof.
  destruct (signing_fan_out Scenario.staging "mail" Scenario.args)
    as (Hthree & Hrest).
  destruct (Hrest eq_refl) as (Hposition & Hdistinct).
  split; [exact Hthree |].
  split; [exact (Hposition 1 "tokB" eq_refl) |].
  apply Hdistinct.
  repeat constructor; simpl; intros H;
    repeat (destruct H as [H|H]; [discriminate H |]); exact H.
Defined.

(* ===================================================================== *)
(** * Return path, sender policy and reporting policy                     *)
(* ===================================================================== *)

(** C6. Every construction, whatever the stack, binds the identity's
    domain [D] to the return-path domain [bounce.D], and declares exactly
    one MX record: it is named [bounce.D] and its single value is
    [10 feedback-smtp.<region>.amazonses.com], the region being the
    constructor argument. *)
Theorem return_path (e : Engine) (name : string) (a : SesArgs) :
  exists D : string,
    domain_identities (declared e name a)
    = [{| DomainIdentityArgs.domain := D |}]
    /\ D = Ses.domain a (currentStack e)
    /\ mail_froms (declared e name a)
       = [{| MailFromArgs.domain := D;
             MailFromArgs.mailFromDomain := "bounce." ++ D |}]
    /\ map name_and_values (records_of_type "MX" (declared e name a))
       = [("bounce." ++ D,
           ["10 feedback-smtp." ++ region a ++ ".amazonses.com"])].
Proof.
  exists (Ses.domain a (currentStack e)). repeat split.
Qed.

(** C7. The sender-policy record is named after the return-path domain of
    the MAIL FROM configuration, which is never the send domain given to
    the identity.  Its single value is the fixed string
    [v=spf1 include:amazonses.com mail -all], whose terms include [mail]
    and end with [-all]. *)
Theorem sender_policy_record (e : Engine) (name : string) (a : SesArgs) :
  exists (D : string) (spf : Route53Record.t),
    domain_identities (declared e name a)
    = [{| DomainIdentityArgs.domain := D |}]
    /\ record_named (spf_urn a (currentStack e)) (declared e name a)
       = Some spf
    /\ map MailFromArgs.mailFromDomain (mail_froms (declared e name a))
       = [rname spf]
    /\ map rname (records_of_type "MX" (declared e name a)) = [rname spf]
    /\ rname spf <> D
    /\ rtype spf = "TXT"
    /\ rvalues spf = ["v=spf1 include:amazonses.com mail -all"]
    /\ words "v=spf1 include:amazonses.com mail -all"
       = ["v=spf1"; "include:amazonses.com"; "mail"; "-all"].
Proof.
  exists (Ses.domain a (currentStack e)).
  eexists. split; [reflexivity |].
  split; [unfold spf_urn; by_logical_name; reflexivity |].
  cbn. repeat split.
  apply append_grows. discriminate.
Qed.

(** C8. The reporting-policy record is named [_dmarc.D], [D] being the
    send domain given to the identity, and its single value is
    [v=DMARC1; p=none; rua=mailto:<admin address>; fo=1;]: for every
    administrative address, the value holds that address unchanged right
    after [rua=mailto:], and it holds [fo=1]. *)
Theorem reporting_policy_record (e : Engine) (name : string) (a : SesArgs) :
  exists (D : string) (dmarc : Route53Record.t),
    domain_identities (declared e name a)
    = [{| DomainIdentityArgs.domain := D |}]
    /\ record_named (dmarc_urn a (currentStack e)) (declared e name a)
       = Some dmarc
    /\ rname dmarc = "_dmarc." ++ D
    /\ rtype dmarc = "TXT"
    /\ rvalues dmarc
       = ["v=DMARC1; p=none; rua=mailto:" ++ adminEmailAddress a
          ++ "; fo=1;"]
    /\ Forall (fun value =>
                 occurs_in ("rua=mailto:" ++ adminEmailAddress a ++ ";") value
                 /\ occurs_in "fo=1" value)
              (rvalues dmarc).
Proof.
  exists (Ses.domain a (currentStack e)).
  eexists. split; [reflexivity |].
  split; [unfold dmarc_urn; by_logical_name; reflexivity |].
  cbn. do 3 (split; [reflexivity |]).
  assert (Hvalue :
            "v=DMARC1; p=none; rua=mailto:" ++ adminEmailAddress a ++ "; fo=1;"
            = "v=DMARC1; p=none; "
              ++ ("rua=mailto:" ++ adminEmailAddress a ++ ";")
              ++ " " ++ "fo=1" ++ ";").
  { change "v=DMARC1; p=none; rua=mailto:"
      with ("v=DMARC1; p=none; " ++ "rua=mailto:").
    change "; fo=1;" with (";" ++ " " ++ "fo=1" ++ ";").
    now rewrite !append_assoc. }
  rewrite Hvalue.
  repeat constructor; find_occurrence.
Qed.

(* ===================================================================== *)
(** * The zone of the records                                             *)
(* ===================================================================== *)

(** C9. The component declares seven DNS records (verification, MAIL FROM
    MX, sender policy, three signing records, reporting policy), and the
    zone of each of them is the zone reference supplied by the caller. *)
Theorem records_share_caller_zone (e : Engine) (name : string) (a : SesArgs) :
  map Route53Record.urn (dns_records (declared e name a))
  = map (fun suffix => Ses.resourcePrefix a (currentStack e) ++ suffix)
        [ "-ses-verification"; "-ses-mail-from-mx-record";
          "-ses-spf-mx-record"; "-dkim-record-1-of-3";
          "-dkim-record-2-of-3"; "-dkim-record-3-of-3"; "-external-dmarc" ]
  /\ Forall (fun r => rzone r = dnsZoneId a) (dns_records (declared e name a)).
Proof.
  split; [reflexivity |].
  cbn. repeat constructor.
Qed.

(* ===================================================================== *)
(** * The stack name                                                      *)
(* ===================================================================== *)

Lemma resourcePrefix_injective (a : SesArgs) (s1 s2 : string) :
  s1 <> s2 -> Ses.resourcePrefix a s1 <> Ses.resourcePrefix a s2.
Proof.
  intros Hne H. unfold Ses.resourcePrefix in H. cbn in H.
  do 2 apply append_inv_head in H. contradiction.
Qed.

Lemma allowedFromAddress_injective (a : SesArgs) (s1 s2 : string) :
  s1 <> s2 -> Ses.allowedFromAddress a s1 <> Ses.allowedFromAddress a s2.
Proof.
  intros Hne H. apply (domain_injective a s1 s2 Hne).
  unfold Ses.allowedFromAddress in H. unfold Ses.domain.
  destruct (s1 =? "production")%string, (s2 =? "production")%string;
    now apply append_inv_head in H.
Qed.

(** Peels equal prefixes and suffixes off an equation between two names
    until the two stack names, or what is derived from them, face each
    other. *)
Ltac names_differ Hne :=
  let H := fresh "H" in
  intros H;
  repeat first
    [ contradiction
    | apply (resourcePrefix_injective _ _ _ Hne) in H
    | apply (domain_injective _ _ _ Hne) in H
    | apply append_inv_head in H
    | apply append_inv_tail in H ].

(** C10. The environment name is the engine's current stack, not an
    argument: two constructions with the same name, the same arguments
    and the same provider values, under two different stacks, differ in
    the resource prefix, hence in the logical name of every child; in the
    send domain given to the identity; in the allowed-sender pattern; and
    in the name of every DNS record, position by position. *)
Theorem stack_name_drives_names
        (p : Provider.t) (s1 s2 name : string) (a : SesArgs) :
  s1 <> s2 ->
  let decls1 := declared {| currentStack := s1; provider := p |} name a in
  let decls2 := declared {| currentStack := s2; provider := p |} name a in
  Ses.resourcePrefix a s1 <> Ses.resourcePrefix a s2
  /\ Forall2 (fun d1 d2 => logical_name d1 <> logical_name d2)
             (children decls1) (children decls2)
  /\ Forall2 (fun i1 i2 =>
                DomainIdentityArgs.domain i1 <> DomainIdentityArgs.domain i2)
             (domain_identities decls1) (domain_identities decls2)
  /\ Ses.allowedFromAddress a s1 <> Ses.allowedFromAddress a s2
  /\ map UserPolicyArgs.policy (user_policies decls1)
     = [JS.JSON_stringify
          (Ses.policyDocument (Ses.allowedFromAddress a s1)) "  "]
  /\ map UserPolicyArgs.policy (user_policies decls2)
     = [JS.JSON_stringify
          (Ses.policyDocument (Ses.allowedFromAddress a s2)) "  "]
  /\ Forall2 (fun r1 r2 => rname r1 <> rname r2)
             (dns_records decls1) (dns_records decls2).
Proof.
  intros Hne decls1 decls2. subst decls1 decls2.
  split; [now apply resourcePrefix_injective |].
  split.
  { cbn. unfold pulumi.getStack. cbn.
    repeat constructor; cbn; names_differ Hne. }
  split.
  { cbn. unfold pulumi.getStack. cbn.
    repeat constructor; cbn; names_differ Hne. }
  split; [now apply allowedFromAddress_injective |].
  split; [reflexivity |]. split; [reflexivity |].
  cbn. unfold pulumi.getStack. cbn.
  repeat constructor; cbn; names_differ Hne.
Qed.

Lemma stack_name_drives_names_scenarios :
  Ses.resourcePrefix Scenario.args "staging"
  <> Ses.resourcePrefix Scenario.args "production"
  /\ Forall2 (fun r1 r2 => rname r1 <> rname r2)
             (dns_records (declared Scenario.staging "mail" Scenario.args))
             (dns_records (declared Scenario.production "mail" Scenario.args)).
Proof.
  destruct (stack_name_drives_names Scenario.issued "staging" "production"
              "mail" Scenario.args ltac:(discriminate))
    as (Hprefix & _ & _ & _ & _ & _ & Hnames).
  split; [exact Hprefix | exact Hnames].
Defined.

(* ===================================================================== *)
(** * The sending principal and its credentials                           *)
(* ===================================================================== *)

(** X1. A construction returns a component whose two getters give the
    SMTP password and the identifier the provider issued for the one
    access key declared, and that key belongs to the user
    [<base domain>-<stack>-email]; the component keeps the name,
    description and tags it was given. *)
Theorem getters_expose_access_key (e : Engine) (name : string) (a : SesArgs) :
  exists this : Ses.t,
    run (Ses.constructor e name a) = inr (this, declared e name a)
    /\ Ses.getEmailUserSmtpPassword this
       = Provider.sesSmtpPasswordV4 (provider e)
    /\ Ses.getEmailUserId this = Provider.accessKeyId (provider e)
    /\ map AccessKeyArgs.user (access_keys (declared e name a))
       = [baseDomain a ++ "-" ++ currentStack e ++ "-email"]
    /\ Ses.name this = name
    /\ Ses.description_ this = description a
    /\ Ses.baseTags_ this = baseTags a.
Proof.
  eexists. split; [reflexivity |].
  cbn. unfold pulumi.getStack, Ses.resourcePrefix. cbn.
  now rewrite !append_assoc.
Qed.

(** X2. One user is declared, under the path [/system/], tagged with the
    stack as its only tag, and named [<base domain>-<stack>-email]; the one
    policy and the one access key are both attached to that user's name. *)
Theorem principal_policy_key_share_user
        (e : Engine) (name : string) (a : SesArgs) :
  exists principal : UserArgs.t,
    users (declared e name a) = [principal]
    /\ UserArgs.name principal
       = baseDomain a ++ "-" ++ currentStack e ++ "-email"
    /\ UserArgs.path principal = "/system/"
    /\ UserArgs.tags principal = [("Environment", currentStack e)]
    /\ map UserPolicyArgs.user (user_policies (declared e name a))
       = [UserArgs.name principal]
    /\ map AccessKeyArgs.user (access_keys (declared e name a))
       = [UserArgs.name principal].
Proof.
  eexists. split; [reflexivity |].
  cbn. unfold pulumi.getStack, Ses.resourcePrefix. cbn.
  rewrite !append_assoc. repeat split.
Qed.

(* ===================================================================== *)
(** * Logical names                                                       *)
(* ===================================================================== *)

(** The children are named by the resource prefix followed by a fixed
    suffix each. *)
Lemma children_names (e : Engine) (name : string) (a : SesArgs) :
  map logical_name (children (declared e name a))
  = map (fun suffix => Ses.resourcePrefix a (currentStack e) ++ suffix)
        child_suffixes.
Proof.
  cbn. now rewrite append_nil_r.
Qed.

Lemma child_suffixes_distinct : NoDup child_suffixes.
Proof.
  unfold child_suffixes.
  repeat constructor; simpl; intros H;
    repeat (destruct H as [H|H]; [discriminate H |]); exact H.
Qed.

Lemma NoDup_map_append (p : string) (l : list string) :
  NoDup l -> NoDup (map (fun suffix => p ++ suffix) l).
Proof.
  induction 1 as [|x l Hx Hl IH]; simpl; constructor; [| exact IH].
  intros Hin. apply in_map_iff in Hin. destruct Hin as (y & Hy & Hin).
  apply append_inv_head in Hy. now subst y.
Qed.

(** X3. Within one component the thirteen children have pairwise distinct
    logical names, whatever the base domain and the stack. *)
Theorem children_names_distinct (e : Engine) (name : string) (a : SesArgs) :
  length (children (declared e name a)) = 13
  /\ NoDup (map logical_name (children (declared e name a))).
Proof.
  split; [reflexivity |].
  rewrite children_names.
  apply NoDup_map_append, child_suffixes_distinct.
Qed.

(* ===================================================================== *)
(** * What each input and each provider value reaches                     *)
(* ===================================================================== *)

(** Evaluates a filter whose tests compare logical names that share the
    resource prefix. *)
Ltac filter_by_name :=
  unfold without_record, without_signing_records, is_record_named,
    verification_urn, mx_urn, dmarc_urn;
  cbn; rewrite ?append_eqb_head; cbn.

(** X4. The verification record is the TXT record [_amazonses.<stack>]
    with TTL 3600 whose single value is the token the provider issued for
    the identity, and a different token changes nothing else in what is
    declared. *)
Theorem verification_record_carries_token
        (e : Engine) (name : string) (a : SesArgs) :
  (exists r : Route53Record.t,
     record_named (verification_urn a (currentStack e)) (declared e name a)
     = Some r
     /\ rname r = "_amazonses." ++ currentStack e
     /\ rtype r = "TXT"
     /\ rttl r = 3600
     /\ rvalues r = [Provider.verificationToken (provider e)])
  /\ (forall token' : string,
        without_record (verification_urn a (currentStack e))
          (declared
             {| currentStack := currentStack e;
                provider :=
                  {| Provider.verificationToken := token';
                     Provider.dkimTokens := Provider.dkimTokens (provider e);
                     Provider.accessKeyId := Provider.accessKeyId (provider e);
                     Provider.sesSmtpPasswordV4 :=
                       Provider.sesSmtpPasswordV4 (provider e) |} |}
             name a)
        = without_record (verification_urn a (currentStack e))
            (declared e name a))
  /\ length (without_record (verification_urn a (currentStack e))
               (declared e name a))
     = 13.
Proof.
  split; [| split].
  - eexists. split.
    + unfold verification_urn. by_logical_name. reflexivity.
    + repeat split.
  - intros token'. filter_by_name. reflexivity.
  - filter_by_name. reflexivity.
Qed.

(** X5. Each of the seven DNS records has TTL 3600 and exactly one value;
    their types are, in program order, TXT, MX, TXT, three CNAME and
    TXT. *)
Theorem records_ttl_and_arity (e : Engine) (name : string) (a : SesArgs) :
  Forall (fun r => rttl r = 3600 /\ length (rvalues r) = 1)
         (dns_records (declared e name a))
  /\ map rtype (dns_records (declared e name a))
     = ["TXT"; "MX"; "TXT"; "CNAME"; "CNAME"; "CNAME"; "TXT"].
Proof.
  split; [| reflexivity].
  cbn. repeat constructor.
Qed.

(** X6. The description, the tags and the component name given by the
    caller reach no child resource: the children are the same for any
    other description, tags and name. *)
Theorem description_tags_name_unused
        (e : Engine) (name name' : string) (a : SesArgs)
        (description' : string) (baseTags' : Tags) :
  children
    (declared e name'
       {| description := description';
          baseTags := baseTags';
          region := region a;
          baseDomain := baseDomain a;
          dnsZoneId := dnsZoneId a;
          adminEmailAddress := adminEmailAddress a |})
  = children (declared e name a).
Proof.
  unfold children, declared, run. cbn. reflexivity.
Qed.

(** X7. The access key's identifier and SMTP password, which the getters
    return, appear in nothing that is declared: other values issued for
    the key leave every declaration as it is. *)
Theorem credentials_not_declared
        (e : Engine) (name : string) (a : SesArgs) (id' password' : string) :
  declared
    {| currentStack := currentStack e;
       provider :=
         {| Provider.verificationToken :=
              Provider.verificationToken (provider e);
            Provider.dkimTokens := Provider.dkimTokens (provider e);
            Provider.accessKeyId := id';
            Provider.sesSmtpPasswordV4 := password' |} |}
    name a
  = declared e name a.
Proof.
  unfold declared, run. cbn. reflexivity.
Qed.

(** X8. The region reaches the MAIL FROM MX record only, and the
    administrative address the reporting-policy record only: with another
    region, or another address, the other thirteen declarations are the
    same. *)
Theorem region_and_admin_reach_one_record
        (e : Engine) (name : string) (a : SesArgs) :
  (forall region' : string,
     without_record (mx_urn a (currentStack e))
       (declared e name
          {| description := description a;
             baseTags := baseTags a;
             region := region';
             baseDomain := baseDomain a;
             dnsZoneId := dnsZoneId a;
             adminEmailAddress := adminEmailAddress a |})
     = without_record (mx_urn a (currentStack e)) (declared e name a))
  /\
  (forall admin' : string,
     without_record (dmarc_urn a (currentStack e))
       (declared e name
          {| description := description a;
             baseTags := baseTags a;
             region := region a;
             baseDomain := baseDomain a;
             dnsZoneId := dnsZoneId a;
             adminEmailAddress := admin' |})
     = without_record (dmarc_urn a (currentStack e)) (declared e name a))
  /\
  length (without_record (mx_urn a (currentStack e)) (declared e name a)) = 13
  /\
  length (without_record (dmarc_urn a (currentStack e)) (declared e name a))
  = 13.
Proof.
  split; [| split; [| split]];
    try intros other; filter_by_name; reflexivity.
Qed.

(** X9. The signing tokens reach the signing records only: with any other
    token list, of any length, every other declaration is the same, and
    three signing records are declared all the same. *)
Theorem tokens_reach_signing_records_only
        (e : Engine) (name : string) (a : SesArgs) (tokens' : list string) :
  let e' :=
    {| currentStack := currentStack e;
       provider :=
         {| Provider.verificationToken :=
              Provider.verificationToken (provider e);
            Provider.dkimTokens := tokens';
            Provider.accessKeyId := Provider.accessKeyId (provider e);
            Provider.sesSmtpPasswordV4 :=
              Provider.sesSmtpPasswordV4 (provider e) |} |} in
  without_signing_records (declared e' name a)
  = without_signing_records (declared e name a)
  /\ length (signing_records e' name a) = 3
  /\ map Route53Record.urn (signing_records e' name a)
     = map Route53Record.urn (signing_records e name a).
Proof.
  intros e'. subst e'. repeat split.
Qed.

(* ===================================================================== *)
(** * Names inside the base domain                                        *)
(* ===================================================================== *)

Lemma ends_with_refl (s : string) : ends_with s s.
Proof. now exists "". Qed.

Lemma ends_with_app (suffix p s : string) :
  ends_with suffix s -> ends_with suffix (p ++ s).
Proof.
  intros (front & ->). exists (p ++ front). now rewrite append_assoc.
Qed.

Lemma domain_ends_with_base (a : SesArgs) (stack : string) :
  ends_with (baseDomain a) (Ses.domain a stack).
Proof.
  unfold Ses.domain. destruct (stack =? "production")%string.
  - apply ends_with_refl.
  - do 2 apply ends_with_app. apply ends_with_refl.
Qed.

Lemma dotted_domain_ends_with_base (a : SesArgs) (stack : string) :
  ends_with ("." ++ baseDomain a) ("." ++ Ses.domain a stack).
Proof.
  unfold Ses.domain. destruct (stack =? "production")%string.
  - apply ends_with_refl.
  - do 2 apply ends_with_app. apply ends_with_refl.
Qed.

(** X10. The identity, the MAIL FROM configuration and the DKIM
    configuration are declared once each and for the same domain, which
    ends with the base domain; and every DNS record other than the
    verification record has a name that ends with [.<base domain>], in
    every stack. *)
Theorem names_stay_inside_base_domain
        (e : Engine) (name : string) (a : SesArgs) :
  exists D : string,
    map DomainIdentityArgs.domain (domain_identities (declared e name a))
    = [D]
    /\ map MailFromArgs.domain (mail_froms (declared e name a)) = [D]
    /\ map DomainDkimArgs.domain (domain_dkims (declared e name a)) = [D]
    /\ ends_with (baseDomain a) D
    /\ Forall (fun r =>
                 Route53Record.urn r = verification_urn a (currentStack e)
                 \/ ends_with ("." ++ baseDomain a) (rname r))
              (dns_records (declared e name a)).
Proof.
  exists (Ses.domain a (currentStack e)).
  do 3 (split; [reflexivity |]).
  split; [apply domain_ends_with_base |].
  cbn. unfold pulumi.getStack.
  repeat first [apply Forall_nil | apply Forall_cons].
  - now left.
  - right. change "bounce." with ("bounce" ++ "."). rewrite append_assoc.
    apply ends_with_app, dotted_domain_ends_with_base.
  - right. change "bounce." with ("bounce" ++ "."). rewrite append_assoc.
    apply ends_with_app, dotted_domain_ends_with_base.
  - right. do 3 apply ends_with_app. apply ends_with_refl.
  - right. do 3 apply ends_with_app. apply ends_with_refl.
  - right. do 3 apply ends_with_app. apply ends_with_refl.
  - right. change "_dmarc." with ("_dmarc" ++ "."). rewrite append_assoc.
    apply ends_with_app, dotted_domain_ends_with_base.
Qed.

(* ===================================================================== *)
(** * The text of the policy                                              *)
(* ===================================================================== *)

Lemma read_quoted_char (c : ascii) (rest : string) :
  read_literal (JS.quote_char c ++ rest) = push_char c (read_literal rest).
Proof.
  destruct c as [[] [] [] [] [] [] [] []]; reflexivity.
Qed.

Lemma read_quoted_body (s rest : string) :
  read_literal (JS.quote_body s ++ JS.dquote ++ rest) = Some (s, rest).
Proof.
  induction s as [|c s IH].
  - reflexivity.
  - change (JS.quote_body (String c s))
      with (JS.quote_char c ++ JS.quote_body s).
    rewrite append_assoc, read_quoted_char, IH. reflexivity.
Qed.

(** X11. Whatever characters a string holds (quotes, backslashes and
    control characters included), what [QuoteJSONString] writes for it is
    an opening quote followed by a body that reads back as the string
    itself and stops at its own closing quote, leaving the text that
    follows untouched. *)
Theorem quoted_string_reads_back (s rest : string) :
  exists body : string,
    JS.QuoteJSONString s ++ rest = JS.dquote ++ body
    /\ read_literal body = Some (s, rest).
Proof.
  exists (JS.quote_body s ++ JS.dquote ++ rest). split.
  - unfold JS.QuoteJSONString. now rewrite !append_assoc.
  - apply read_quoted_body.
Qed.

(** A string framed by the text before it and the text after it. *)
Lemma framed_here (s : string) : s = "" ++ s ++ "".
Proof. now rewrite append_nil_r. Qed.

Lemma framed_left (before s after l r : string) :
  l = before ++ s ++ after -> l ++ r = before ++ s ++ (after ++ r).
Proof. intros ->. now rewrite !append_assoc. Qed.

Lemma framed_right (before s after l r : string) :
  r = before ++ s ++ after -> l ++ r = (l ++ before) ++ s ++ after.
Proof. intros ->. now rewrite !append_assoc. Qed.

Ltac find_frame s :=
  lazymatch goal with
  | |- s = _ => apply framed_here
  | |- ?l ++ ?r = _ =>
      first [ eapply framed_left; find_frame s
            | eapply framed_right; find_frame s ]
  end.

(** The policy text is a fixed text around the quoted pattern. *)
Lemma policy_text_shape :
  exists before after : string,
    forall pattern : string,
      JS.JSON_stringify (Ses.policyDocument pattern) "  "
      = before ++ JS.QuoteJSONString pattern ++ after.
Proof.
  do 2 eexists. intros pattern.
  unfold JS.JSON_stringify, Ses.policyDocument.
  cbn -[JS.QuoteJSONString String.append].
  find_frame (JS.QuoteJSONString pattern).
Qed.

(** X12. Two different allowed-sender patterns never give the same policy
    text. *)
Theorem policy_text_determines_pattern (pattern1 pattern2 : string) :
  pattern1 <> pattern2 ->
  JS.JSON_stringify (Ses.policyDocument pattern1) "  "
  <> JS.JSON_stringify (Ses.policyDocument pattern2) "  ".
Proof.
  intros Hne Heq.
  destruct policy_text_shape as (before & after & Hshape).
  rewrite !Hshape in Heq.
  apply append_inv_head in Heq.
  destruct (quoted_string_reads_back pattern1 after) as (b1 & E1 & R1).
  destruct (quoted_string_reads_back pattern2 after) as (b2 & E2 & R2).
  rewrite Heq, E2 in E1. apply append_inv_head in E1. subst b2.
  rewrite R1 in R2. injection R2 as R2. contradiction.
Qed.

Lemma policy_text_determines_pattern_scenarios :
  JS.JSON_stringify (Ses.policyDocument "*@example.com") "  "
  <> JS.JSON_stringify (Ses.policyDocument "*@staging.example.com") "  ".
Proof.
  apply policy_text_determines_pattern. discriminate.
Defined.

(* ===================================================================== *)
(** * Two components in one program                                       *)
(* ===================================================================== *)

(** A construction adds its declarations after those already made and
    touches none of them. *)
Lemma constructor_appends
      (e : Engine) (name : string) (a : SesArgs) (before : list Declaration) :
  exists this : Ses.t,
    runStateT (Ses.constructor e name a) before
    = inr (this, (before ++ declared e name a)%list).
Proof.
  eexists. cbn. rewrite <- !app_assoc. reflexivity.
Qed.

(** X13. The component name is no part of the children's logical names:
    a program that instantiates the component twice for one base domain,
    under whatever two names and with whatever other arguments, declares
    everything of the first, then everything of the second, and the
    second's thirteen children repeat the logical names of the first's, so
    the names of the program's children are not pairwise distinct. *)
Theorem two_components_share_names
        (e : Engine) (name1 name2 : string) (a1 a2 : SesArgs) :
  baseDomain a1 = baseDomain a2 ->
  exists pair : Ses.t * Ses.t,
    run (two_components e name1 a1 name2 a2)
    = inr (pair, (declared e name1 a1 ++ declared e name2 a2)%list)
    /\ map logical_name (children (declared e name2 a2))
       = map logical_name (children (declared e name1 a1))
    /\ ~ NoDup (map logical_name
                    (children (declared e name1 a1 ++ declared e name2 a2))).
Proof.
  intros Hbase.
  assert (Hnames :
            map logical_name (children (declared e name2 a2))
            = map logical_name (children (declared e name1 a1))).
  { rewrite !children_names. unfold Ses.resourcePrefix.
    now rewrite Hbase. }
  eexists. split; [| split; [exact Hnames |]].
  - reflexivity.
  - unfold children. rewrite filter_app, map_app.
    fold (children (declared e name1 a1)) (children (declared e name2 a2)).
    rewrite Hnames, children_names.
    unfold child_suffixes. cbn [map].
    intros Hnodup. apply NoDup_remove_2 in Hnodup.
    apply Hnodup. now left.
Qed.

Lemma two_components_share_names_scenario :
  map logical_name
      (children (declared Scenario.staging "billing" no_domain_args))
  = map logical_name
        (children
           (declared Scenario.staging "mail"
              {| description := "Transactional mail";
                 baseTags := [];
                 region := "eu-west-1";
                 baseDomain := "";
                 dnsZoneId := "Z999";
                 adminEmailAddress := "ops@example.com" |})).
Proof.
  destruct (two_components_share_names Scenario.staging "mail" "billing"
              {| description := "Transactional mail";
                 baseTags := [];
                 region := "eu-west-1";
                 baseDomain := "";
                 dnsZoneId := "Z999";
                 adminEmailAddress := "ops@example.com" |}
              no_domain_args eq_refl)
    as (_ & _ & Hnames & _).
  exact Hnames.
Defined.

(* ===================================================================== *)
(** * The pattern and the identity                                        *)
(* ===================================================================== *)

(** The two tests on the stack name agree: the pattern is the send domain
    behind [*@]. *)
Lemma allowedFromAddress_of_domain (a : SesArgs) (stack : string) :
  Ses.allowedFromAddress a stack = "*@" ++ Ses.domain a stack.
Proof.
  unfold Ses.allowedFromAddress, Ses.domain.
  now destruct (stack =? "production")%string.
Qed.

(** X14. In every stack the policy allows exactly the senders of the
    identity's domain: the policy text is the serialised document for the
    pattern [*@D], [D] being the domain the identity is declared for. *)
Theorem pattern_follows_identity (e : Engine) (name : string) (a : SesArgs) :
  exists D : string,
    map DomainIdentityArgs.domain (domain_identities (declared e name a))
    = [D]
    /\ map UserPolicyArgs.policy (user_policies (declared e name a))
       = [JS.JSON_stringify (Ses.policyDocument ("*@" ++ D)) "  "]
    /\ fromAddressCondition (Ses.policyDocument ("*@" ++ D))
       = Some (JS.JString ("*@" ++ D)).
Proof.
  exists (Ses.domain a (currentStack e)).
  split; [reflexivity |]. split; [| reflexivity].
  cbn. unfold pulumi.getStack.
  now rewrite allowedFromAddress_of_domain.
Qed.
